(** * EV predictive-maintenance API: the service layer of [app/main.py]

    A shallow embedding of the FastAPI module [app/main.py]: the shared
    dictionary [predictor_instance], the [lifespan] hook and the four route
    handlers [predict_maintenance], [root], [health_check] and
    [get_model_info], with the application object, its route table and its
    cross-origin middleware.

    Python values are a small inductive type, the module-level dictionary is
    a [gmap] with string keys, and a handler is a computation in a state and
    exception monad over the process state.  The handlers are [async def]
    bodies without any [await]: each runs to completion on the event loop, so
    a run of the process is a sequence of whole handler executions. *)

From Stdlib Require Import ZArith String List Floats.
From stdpp Require Import base option gmap strings list.
Import ListNotations.
Local Open Scope string_scope.
Local Open Scope Z_scope.

(** ** Python values *)

(** The JSON-like values that flow through the handlers.  A [dict] keeps its
    insertion order, hence the association list; keys are strings. *)
#[warnings="-register-all"]
Inductive pyval : Type :=
| PNone
| PBool (b : bool)
| PInt (z : Z)
| PFloat (f : float)
| PStr (s : string)
| PList (items : list pyval)
| PDict (entries : list (string * pyval)).

Abbreviation pydict := (list (string * pyval)).

(** [type(v).__name__] *)
Definition type_name (v : pyval) : string :=
  match v with
  | PNone => "NoneType"
  | PBool _ => "bool"
  | PInt _ => "int"
  | PFloat _ => "float"
  | PStr _ => "str"
  | PList _ => "list"
  | PDict _ => "dict"
  end.

(** [d[k]] as an option: the binding of [k] in [d]. *)
Fixpoint dict_lookup (d : pydict) (k : string) : option pyval :=
  match d with
  | [] => None
  | (k', v) :: rest => if String.eqb k' k then Some v else dict_lookup rest k
  end.

(** [d.get(k)]: the binding of [k], or [None] when there is none. *)
Definition dict_get (d : pydict) (k : string) : pyval :=
  match dict_lookup d k with
  | Some v => v
  | None => PNone
  end.

(** [v == s] for a string literal [s]: only a [str] with the same characters
    compares equal to a [str]. *)
Definition eq_str (v : pyval) (s : string) : bool :=
  match v with
  | PStr t => String.eqb t s
  | _ => false
  end.

(** [sub in s] *)
Definition contains (sub s : string) : bool :=
  match String.index 0 sub s with
  | Some _ => true
  | None => false
  end.

(** [v is None] *)
Definition is_None (v : pyval) : bool :=
  match v with
  | PNone => true
  | _ => false
  end.

(** ** Status codes *)

(** The constants of [fastapi.status] that the module names, with their
    numeric value and the reason phrase [http.HTTPStatus(code).phrase]. *)
Module status.
Inductive t : Set :=
| HTTP_200_OK
| HTTP_400_BAD_REQUEST
| HTTP_500_INTERNAL_SERVER_ERROR
| HTTP_503_SERVICE_UNAVAILABLE.

Definition code (s : t) : Z :=
  match s with
  | HTTP_200_OK => 200
  | HTTP_400_BAD_REQUEST => 400
  | HTTP_500_INTERNAL_SERVER_ERROR => 500
  | HTTP_503_SERVICE_UNAVAILABLE => 503
  end.

Definition phrase (s : t) : string :=
  match s with
  | HTTP_200_OK => "OK"
  | HTTP_400_BAD_REQUEST => "Bad Request"
  | HTTP_500_INTERNAL_SERVER_ERROR => "Internal Server Error"
  | HTTP_503_SERVICE_UNAVAILABLE => "Service Unavailable"
  end.
End status.

(** ** Exceptions *)

(** A raised exception, by the part of the class hierarchy the [except]
    clauses of the module tell apart:
    - [HTTPExc]: an instance of [fastapi.HTTPException], with its
      [status_code] and [detail] attributes;
    - [Exc]: an instance of any other subclass of [Exception], with its class
      name and [str(e)];
    - [BaseExc]: an instance of a [BaseException] class that does not derive
      from [Exception] ([KeyboardInterrupt], [SystemExit], ...). *)
Inductive exn : Type :=
| HTTPExc (status_code : Z) (detail : pyval)
| Exc (cls : string) (message : string)
| BaseExc (cls : string) (message : string).

(** [HTTPException(status_code=s, detail=d)].  The constructor (Starlette's
    [HTTPException.__init__]) stores the reason phrase of the status code
    when [detail] is [None]. *)
Definition HTTPException (s : status.t) (d : pyval) : exn :=
  HTTPExc (status.code s)
          (if is_None d then PStr (status.phrase s) else d).

(** [isinstance(e, HTTPException)] and [isinstance(e, Exception)] *)
Definition is_HTTPException (e : exn) : bool :=
  match e with
  | HTTPExc _ _ => true
  | _ => false
  end.

Definition is_Exception (e : exn) : bool :=
  match e with
  | HTTPExc _ _ | Exc _ _ => true
  | BaseExc _ _ => false
  end.

(** [str(e)]; for an [HTTPExc] the text is never needed by the module. *)
Definition exn_str (e : exn) : string :=
  match e with
  | HTTPExc _ _ => "HTTPException"
  | Exc _ m => m
  | BaseExc _ m => m
  end.

(** The outcome of running a piece of Python: a value, or a raised
    exception. *)
Inductive result (A : Type) : Type :=
| Return (a : A)
| Raise (e : exn).
Arguments Return {A} a.
Arguments Raise {A} e.

(** ** The predictor collaborator *)

(** An object of any class, as far as the module looks at it:
    [type(o).__name__]. *)
Record pyobject : Type := { class_name : string }.

(** An instance of [app.inference.EVMaintenancePredictor], through the
    members the module uses: the [predict] method, which returns a value or
    raises, and the attributes [feature_columns], [soh_model] and
    [thermal_model].  [predict] receives the caller's dictionary itself and
    may change it: [predict_mutation d] is what that dictionary holds when
    the call [predict(d)] has ended. *)
Record EVMaintenancePredictor : Type := {
  predict : pydict → result pyval;
  predict_mutation : pydict → pydict;
  feature_columns : pyval;
  soh_model : pyobject;
  thermal_model : pyobject
}.

(** ** Process state *)

Inductive level : Set := INFO | ERROR.

(** One call of [logger.info] or [logger.error]: the literal text of the
    f-string and the value interpolated after it, if any. *)
Record log_record : Type := {
  lvl : level;
  text : string;
  arg : option pyval
}.

(** The state of the process that the module reads and writes:
    - [predictor_instance]: the module-level dictionary of that name;
    - [instances]: the predictor objects constructed so far;
    - [predict_calls]: the arguments of the calls to [predictor.predict];
    - [records]: what was logged;
    - [now]: [datetime.now().isoformat()] at the current request. *)
Record world : Type := World {
  predictor_instance : gmap string EVMaintenancePredictor;
  instances : list EVMaintenancePredictor;
  predict_calls : list pydict;
  records : list log_record;
  now : string
}.

(** ** The monad of handler bodies: state and exceptions *)

Definition M (A : Type) : Type := world → result A * world.

#[export] Instance M_ret : MRet M := λ A a w, (Return a, w).

#[export] Instance M_bind : MBind M := λ A B f m w,
  match m w with
  | (Return a, w') => f a w'
  | (Raise e, w') => (Raise e, w')
  end.

(** [raise e] *)
Definition throw {A : Type} (e : exn) : M A := λ w, (Raise e, w).

(** [try: body / except ...: handler]: [handler e] is [Some h] when a clause
    matches [e], and [h] is the body of that clause. *)
Definition try_except {A : Type} (body : M A) (handler : exn → option (M A)) : M A :=
  λ w, match body w with
       | (Return a, w') => (Return a, w')
       | (Raise e, w') =>
           match handler e with
           | Some h => h w'
           | None => (Raise e, w')
           end
       end.

(** The updates of the process state. *)
Definition with_record (r : log_record) (w : world) : world :=
  World (predictor_instance w) (instances w) (predict_calls w)
        (records w ++ [r]) (now w).

Definition with_call (d : pydict) (w : world) : world :=
  World (predictor_instance w) (instances w) (predict_calls w ++ [d])
        (records w) (now w).

Definition with_instance (p : EVMaintenancePredictor) (w : world) : world :=
  World (predictor_instance w) (instances w ++ [p]) (predict_calls w)
        (records w) (now w).

Definition with_predictor_instance
    (d : gmap string EVMaintenancePredictor) (w : world) : world :=
  World d (instances w) (predict_calls w) (records w) (now w).

(** [logger.info(...)], [logger.error(...)] *)
Definition logger_log (l : level) (t : string) (a : option pyval) : M unit :=
  λ w, (Return tt, with_record {| lvl := l; text := t; arg := a |} w).

Definition logger_info := logger_log INFO.
Definition logger_error := logger_log ERROR.

(** [predictor_instance.get(k)] *)
Definition predictor_instance_get (k : string) : M (option EVMaintenancePredictor) :=
  λ w, (Return (predictor_instance w !! k), w).

(** [predictor_instance[k] = p] *)
Definition predictor_instance_set (k : string) (p : EVMaintenancePredictor) : M unit :=
  λ w, (Return tt, with_predictor_instance (<[k := p]> (predictor_instance w)) w).

(** [predictor_instance.clear()] *)
Definition predictor_instance_clear : M unit :=
  λ w, (Return tt, with_predictor_instance ∅ w).

(** [predictor.predict(d)]: the call is recorded, and its outcome is the
    method's. *)
Definition call_predict (p : EVMaintenancePredictor) (d : pydict) : M pyval :=
  λ w, (predict p d, with_call d w).

(** [v.get(k)] on the value a call returned: the dictionary method, or an
    [AttributeError] when [v] is not a dictionary. *)
Definition py_get (v : pyval) (k : string) : M pyval :=
  match v with
  | PDict d => mret (dict_get d k)
  | _ => throw (Exc "AttributeError"
                    ("'" ++ type_name v ++ "' object has no attribute 'get'"))
  end.

(** [datetime.now().isoformat()] *)
Definition datetime_now_isoformat : M string := λ w, (Return (now w), w).

(** ** The application *)

Section App.

(** [app.config.MODEL_VERSION] *)
Variable MODEL_VERSION : string.

(** [app.schemas.VehicleData], a validated request body, and its
    [model_dump()], the plain mapping of its fields. *)
Variable VehicleData : Type.
Variable model_dump : VehicleData → pydict.

(** The success status the [/predict] route declares
    ([status_code=status.HTTP_200_OK]). *)
Definition predict_status_code : status.t := status.HTTP_200_OK.

(** [POST /predict]: the block under [try:] ... *)
Definition predict_maintenance_try (vehicle_data : VehicleData) : M pyval :=
  predictor ← predictor_instance_get "predictor";
  match predictor with
  | None =>
      throw (HTTPException status.HTTP_503_SERVICE_UNAVAILABLE
               (PStr "Model not loaded. Server may be starting up."))
  | Some predictor =>
      let vehicle_dict := model_dump vehicle_data in
      logger_info "Processing prediction for "
        (Some (dict_get vehicle_dict "Vehicle_ID"));;
      result ← call_predict predictor vehicle_dict;
      (* [vehicle_dict] is the object the call had: it now holds what the
         call left in it *)
      let vehicle_dict := predict_mutation predictor vehicle_dict in
      st ← py_get result "status";
      if eq_str st "error" then
        error_message ← py_get result "error_message";
        throw (HTTPException status.HTTP_400_BAD_REQUEST error_message)
      else
        logger_info "Prediction successful for "
          (Some (dict_get vehicle_dict "Vehicle_ID"));;
        mret result
  end.

(** ... its two [except] clauses, in the order they are tried ... *)
Definition predict_maintenance_except (e : exn) : option (M pyval) :=
  if is_HTTPException e then
    (* except HTTPException: raise *)
    Some (throw e)
  else if is_Exception e then
    (* except Exception as e: log, raise HTTPException(500, ...) *)
    Some (logger_error "Prediction error: " (Some (PStr (exn_str e)));;
          throw (HTTPException status.HTTP_500_INTERNAL_SERVER_ERROR
                   (PStr ("Prediction failed: " ++ exn_str e))))
  else None.

(** ... and the handler. *)
Definition predict_maintenance (vehicle_data : VehicleData) : M pyval :=
  try_except (predict_maintenance_try vehicle_data) predict_maintenance_except.

(** The state in which [predictor.predict] returns or raises: the request
    was logged and the call recorded. *)
Definition called (vehicle_data : VehicleData) (w : world) : world :=
  let vehicle_dict := model_dump vehicle_data in
  with_call vehicle_dict
    (with_record {| lvl := INFO; text := "Processing prediction for ";
                    arg := Some (dict_get vehicle_dict "Vehicle_ID") |} w).

(** [GET /] *)
Definition root : M pyval :=
  mret (PDict [
    ("message", PStr "EV Predictive Maintenance");
    ("version", PStr MODEL_VERSION);
    ("status", PStr "running");
    ("docs", PStr "/docs");
    ("endpoints", PDict [
       ("health", PStr "GET /health");
       ("predict", PStr "POST /predict");
       ("model_info", PStr "GET /model/info")])]).

(** [GET /health] *)
Definition health_check : M pyval :=
  timestamp ← datetime_now_isoformat;
  mret (PDict [
    ("status", PStr "healthy");
    ("model_version", PStr MODEL_VERSION);
    ("timestamp", PStr timestamp)]).

(** The table under ["thresholds"] in the body of [/model/info]. *)
#[warnings="-inexact-float"]
Definition thresholds : pyval :=
  PDict [
    ("soh_critical", PFloat 0.60%float);
    ("soh_warning", PFloat 0.80%float);
    ("rul_urgent", PInt 100);
    ("thermal_danger", PFloat 0.70%float)].

(** [GET /model/info] *)
Definition get_model_info : M pyval :=
  predictor ← predictor_instance_get "predictor";
  match predictor with
  | None =>
      throw (HTTPException status.HTTP_503_SERVICE_UNAVAILABLE
               (PStr "Models not loaded"))
  | Some predictor =>
      mret (PDict [
        ("model_version", PStr MODEL_VERSION);
        ("features", feature_columns predictor);
        ("models", PDict [
           ("soh_predictor", PStr (class_name (soh_model predictor)));
           ("thermal_predictor", PStr (class_name (thermal_model predictor)))]);
        ("thresholds", thresholds)])
  end.

(** *** The lifespan hook *)

(** The outcome of the call [EVMaintenancePredictor()]: the new object, or
    the exception its construction raises. *)
Variable EVMaintenancePredictor_new : result EVMaintenancePredictor.

(** [EVMaintenancePredictor()]: a constructed object joins [instances]. *)
Definition construct : M EVMaintenancePredictor :=
  λ w, match EVMaintenancePredictor_new with
       | Return p => (Return p, with_instance p w)
       | Raise e => (Raise e, w)
       end.

(** [lifespan], up to its [yield]: what runs at startup. *)
Definition lifespan_startup : M unit :=
  logger_info " Starting up API server..." None;;
  try_except
    (predictor ← construct;
     predictor_instance_set "predictor" predictor;;
     logger_info "Models loaded " None)
    (λ e,
       if is_Exception e then
         (* except Exception as e: logger.error(...); raise *)
         Some (logger_error "Failed to load models" None;; throw e)
       else None).

(** [lifespan], after its [yield]: what runs at shutdown. *)
Definition lifespan_shutdown : M unit :=
  logger_info " Shutting down" None;;
  predictor_instance_clear;;
  logger_info " Cleanup complete" None.

(** *** The process *)

(** A request to one of the four routes; the body of a [POST /predict] has
    already been parsed into a [VehicleData]. *)
Inductive request : Type :=
| POST_predict (vehicle_data : VehicleData)
| GET_root
| GET_health
| GET_model_info.

Definition handle (r : request) : M pyval :=
  match r with
  | POST_predict vehicle_data => predict_maintenance vehicle_data
  | GET_root => root
  | GET_health => health_check
  | GET_model_info => get_model_info
  end.

(** Where the hosting server is in the lifespan protocol: the startup part
    of [lifespan] has not completed ([Starting]), it has completed
    ([Serving]), the shutdown part has run ([Stopped]), or startup raised
    and the server gave up ([Aborted]). *)
Inductive phase : Set := Starting | Serving | Stopped | Aborted.

(** The wall clock moves between two handler executions. *)
Definition at_time (t : string) (w : world) : world :=
  World (predictor_instance w) (instances w) (predict_calls w) (records w) t.

(** One step of the process.  The server runs the startup part of
    [lifespan] once; when it raises, the server exits and nothing runs
    afterwards.  A handler runs whole, at some time [t].  A conforming
    server hands requests to the application only while [Serving]; the
    relation also lets a handler run while the phase is [Starting] or
    [Stopped], the situation the handlers guard against when they find
    [predictor_instance] empty, so that what is proved of a run does not
    rest on the server's discipline. *)
Inductive step : phase * world → phase * world → Prop :=
| step_startup_ok w w' :
    lifespan_startup w = (Return tt, w') →
    step (Starting, w) (Serving, w')
| step_startup_raise w e w' :
    lifespan_startup w = (Raise e, w') →
    step (Starting, w) (Aborted, w')
| step_request ph r t w :
    ph ≠ Aborted →
    step (ph, w) (ph, (handle r (at_time t w)).2)
| step_shutdown w :
    step (Serving, w) (Stopped, (lifespan_shutdown w).2).

(** A fresh process: nothing stored, constructed, called or logged. *)
Definition boot (t : string) : phase * world := (Starting, World ∅ [] [] [] t).

(** The predictor along a run, phase by phase: before startup completes
    and after it raised, nothing was constructed and nothing is stored;
    while serving, the one object that [EVMaintenancePredictor()] returned
    is stored under ["predictor"] and nothing else is; after shutdown that
    object is no longer stored. *)
Definition lifecycle_inv (s : phase * world) : Prop :=
  match s.1 with
  | Starting | Aborted =>
      predictor_instance s.2 = ∅ ∧ instances s.2 = []
  | Serving =>
      ∃ p, EVMaintenancePredictor_new = Return p ∧
           predictor_instance s.2 = {["predictor" := p]} ∧ instances s.2 = [p]
  | Stopped =>
      ∃ p, EVMaintenancePredictor_new = Return p ∧
           predictor_instance s.2 = ∅ ∧ instances s.2 = [p]
  end.

(** *** Validation of the request body *)

Variable VehicleData_validate : pyval → option VehicleData.

(** The failure of a body that does not satisfy the schema:
    [fastapi.exceptions.RequestValidationError], which is not an
    [HTTPException]. *)
Definition RequestValidationError : exn :=
  Exc "RequestValidationError" "request body does not satisfy VehicleData".

(** Modelled from the spec: the validation of the JSON body of
    [POST /predict] against the schema [app.schemas.VehicleData], which is
    not part of [app/main.py]; the framework runs it for the parameter
    [vehicle_data: VehicleData] before it calls [predict_maintenance].
    [VehicleData_validate body] is the validated record, or [None] when
    [body] does not satisfy the schema (a required field is missing, say);
    such a body is rejected with a schema-validation failure and the
    handler is not entered. *)
Definition post_predict (body : pyval) : M pyval :=
  match VehicleData_validate body with
  | Some vehicle_data => predict_maintenance vehicle_data
  | None => throw RequestValidationError
  end.

(** *** The response of [POST /predict] *)

(** [app.schemas.PredictionResponse], the [response_model] of the route, as
    the framework applies it to the value the handler returned: that value
    validated against the model and dumped again, or [None] when it does not
    validate. *)
Variable PredictionResponse : pyval → option pyval.

(** The failure of a returned value that the response model rejects:
    [fastapi.exceptions.ResponseValidationError]. *)
Definition ResponseValidationError : exn :=
  Exc "ResponseValidationError" "returned value does not satisfy PredictionResponse".

(** [JSONResponse(content=..., status_code=...)] *)
Record JSONResponse : Type := {
  status_code : Z;
  content : pyval
}.

(** The route [@app.post("/predict", response_model=PredictionResponse,
    status_code=status.HTTP_200_OK)]: the handler runs, and what it returns
    is serialized through the response model into the body of a response
    with the declared status. *)
Definition predict_route (vehicle_data : VehicleData) : M JSONResponse :=
  returned ← predict_maintenance vehicle_data;
  match PredictionResponse returned with
  | Some body =>
      mret {| status_code := status.code predict_status_code; content := body |}
  | None => throw ResponseValidationError
  end.

End App.

Arguments predict_maintenance_try {VehicleData} model_dump vehicle_data.
Arguments predict_maintenance {VehicleData} model_dump vehicle_data.
Arguments post_predict {VehicleData} model_dump VehicleData_validate body.
Arguments POST_predict {VehicleData} vehicle_data.
Arguments GET_root {VehicleData}.
Arguments GET_health {VehicleData}.
Arguments GET_model_info {VehicleData}.
Arguments handle MODEL_VERSION {VehicleData} model_dump r.
Arguments step MODEL_VERSION {VehicleData} model_dump EVMaintenancePredictor_new.
Arguments called {VehicleData} model_dump vehicle_data w.
Arguments predict_route {VehicleData} model_dump PredictionResponse vehicle_data.

(** ** The application object, its middleware and its routes *)

(** The arguments of [FastAPI(...)] that [app] is built with. *)
Record FastAPI : Type := {
  title : string;
  description : string;
  version : string;
  docs_url : string;
  redoc_url : string
}.

Definition app (MODEL_VERSION : string) : FastAPI :=
  {| title := "EV Predictive Maintenance API";
     description := "ML-powered battery health monitoring and maintenance prediction";
     version := MODEL_VERSION;
     docs_url := "/docs";
     redoc_url := "/redoc" |}.

(** A route as its decorator registers it: [@app.post(path, ...)] or
    [@app.get(path, ...)], and the function it decorates. *)
Record route : Type := {
  method : string;
  path : string;
  endpoint : string
}.

Definition routes : list route :=
  [ {| method := "POST"; path := "/predict"; endpoint := "predict_maintenance" |};
    {| method := "GET"; path := "/"; endpoint := "root" |};
    {| method := "GET"; path := "/health"; endpoint := "health_check" |};
    {| method := "GET"; path := "/model/info"; endpoint := "get_model_info" |} ].

(** The arguments of [app.add_middleware(CORSMiddleware, ...)]. *)
Record CORSMiddleware : Type := {
  allow_origins : list string;
  allow_credentials : bool;
  allow_methods : list string;
  allow_headers : list string
}.

Definition cors : CORSMiddleware :=
  {| allow_origins :=
       ["https://ev-fleet-predictive-maintenance-backend.onrender.com/openapi.json"];
     allow_credentials := true;
     allow_methods := ["*"];
     allow_headers := ["*"] |}.

(** [s in l] for a list of strings *)
Definition str_in (s : string) (l : list string) : bool :=
  existsb (String.eqb s) l.

(** [CORSMiddleware.is_allowed_origin] (Starlette), for a middleware built
    without [allow_origin_regex]: every origin when ["*"] is listed,
    otherwise the listed origins. *)
Definition is_allowed_origin (c : CORSMiddleware) (origin : string) : bool :=
  if str_in "*" (allow_origins c) then true
  else str_in origin (allow_origins c).

(** The value of an [Origin] request header: scheme, host and optional port,
    and nothing after them. *)
Definition origin_header (scheme host : string) (port : option string) : string :=
  scheme ++ "://" ++ host ++
  match port with
  | Some p => ":" ++ p
  | None => ""
  end.

(** [s.count("/")] *)
Fixpoint count_slash (s : string) : nat :=
  match s with
  | EmptyString => 0%nat
  | String c rest =>
      ((if String.eqb (String c "") "/" then 1 else 0) + count_slash rest)%nat
  end.

(** The records [predict_maintenance] logs. *)
Definition processing_record (vehicle_dict : pydict) : log_record :=
  {| lvl := INFO; text := "Processing prediction for ";
     arg := Some (dict_get vehicle_dict "Vehicle_ID") |}.

Definition successful_record (vehicle_dict : pydict) : log_record :=
  {| lvl := INFO; text := "Prediction successful for ";
     arg := Some (dict_get vehicle_dict "Vehicle_ID") |}.

Definition error_record (e : exn) : log_record :=
  {| lvl := ERROR; text := "Prediction error: "; arg := Some (PStr (exn_str e)) |}.

(** The [AttributeError] of [v.get] on a value without that method. *)
Definition no_get (v : pyval) : exn :=
  Exc "AttributeError" ("'" ++ type_name v ++ "' object has no attribute 'get'").

(** [isinstance(v, dict)] *)
Definition is_dict (v : pyval) : bool :=
  match v with
  | PDict _ => true
  | _ => false
  end.

(** ** Sample data *)

(** A telemetry record, a predictor whose [predict] is [f], and two process
    states: one with nothing loaded, one serving the predictor [p]. *)
Definition sample_vehicle : pydict :=
  [("Vehicle_ID", PStr "EV-001"); ("Charge_Cycles", PInt 412)].

Definition sample_predictor (f : pydict → result pyval) : EVMaintenancePredictor :=
  {| predict := f;
     predict_mutation := λ d, d;
     feature_columns := PList [PStr "SoC"; PStr "Charge_Cycles"];
     soh_model := {| class_name := "RandomForestRegressor" |};
     thermal_model := {| class_name := "RandomForestClassifier" |} |}.

(** [d[k] = v] *)
Fixpoint dict_set (d : pydict) (k : string) (v : pyval) : pydict :=
  match d with
  | [] => [(k, v)]
  | (k', v') :: rest =>
      if String.eqb k' k then (k, v) :: rest else (k', v') :: dict_set rest k v
  end.

(** A predictor whose [predict] normalises the identifier in the dictionary
    it is given and reports a success. *)
Definition renaming_predictor : EVMaintenancePredictor :=
  {| predict := λ _, Return (PDict [("status", PStr "success")]);
     predict_mutation := λ d, dict_set d "Vehicle_ID" (PStr "ev-001");
     feature_columns := PList [PStr "SoC"; PStr "Charge_Cycles"];
     soh_model := {| class_name := "RandomForestRegressor" |};
     thermal_model := {| class_name := "RandomForestClassifier" |} |}.

(** A response model with the two required fields ['status'] and ['soh']:
    a mapping that has both validates, and is dumped as those two fields. *)
Definition status_and_soh (v : pyval) : option pyval :=
  match v with
  | PDict d =>
      match dict_lookup d "status", dict_lookup d "soh" with
      | Some st, Some soh => Some (PDict [("status", st); ("soh", soh)])
      | _, _ => None
      end
  | _ => None
  end.

(** A schema that requires the field ['Vehicle_ID']. *)
Definition requires_Vehicle_ID (body : pyval) : option pydict :=
  match body with
  | PDict d =>
      match dict_lookup d "Vehicle_ID" with
      | Some _ => Some d
      | None => None
      end
  | _ => None
  end.

Definition idle : world := World ∅ [] [] [] "2024-05-01T12:00:00".

Definition loaded (p : EVMaintenancePredictor) : world :=
  World {["predictor" := p]} [p] [] [] "2024-05-01T12:00:00".

(** * Properties *)

(** ** Dictionaries and comparisons *)

Lemma eq_str_true v s : eq_str v s = true ↔ v = PStr s.
Proof.
  destruct v; simpl; try (split; [discriminate | congruence]).
  rewrite String.eqb_eq. split; congruence.
Qed.

Lemma eq_str_status m s :
  eq_str (dict_get m "status") s = true ↔ dict_lookup m "status" = Some (PStr s).
Proof.
  rewrite eq_str_true. unfold dict_get.
  destruct (dict_lookup m "status") as [v|]; split; congruence.
Qed.

Lemma eq_str_status_false m s :
  eq_str (dict_get m "status") s = false ↔ dict_lookup m "status" ≠ Some (PStr s).
Proof.
  rewrite <- eq_str_status. destruct (eq_str _ s); split; congruence.
Qed.

Lemma dict_get_lookup m k v : dict_lookup m k = Some v → dict_get m k = v.
Proof. unfold dict_get. intros ->. reflexivity. Qed.

Lemma dict_get_absent m k : dict_lookup m k = None → dict_get m k = PNone.
Proof. unfold dict_get. intros ->. reflexivity. Qed.

(** ** Running a handler *)

Ltac run := unfold mbind, mret, M_bind, M_ret, throw; simpl.

Section Handlers.

Context (MODEL_VERSION : string) {VehicleData : Type}
        (model_dump : VehicleData → pydict).

(** The [try] block without a predictor. *)
Lemma try_absent vehicle_data w :
  predictor_instance w !! "predictor" = None →
  predict_maintenance_try model_dump vehicle_data w =
    (Raise (HTTPExc 503 (PStr "Model not loaded. Server may be starting up.")), w).
Proof.
  intros Hget. unfold predict_maintenance_try, predictor_instance_get. run.
  rewrite Hget. reflexivity.
Qed.

(** The [try] block when [predict] raises. *)
Lemma try_predict_raises vehicle_data w p e :
  predictor_instance w !! "predictor" = Some p →
  predict p (model_dump vehicle_data) = Raise e →
  predict_maintenance_try model_dump vehicle_data w = (Raise e, called model_dump vehicle_data w).
Proof.
  intros Hget Hp. unfold predict_maintenance_try, predictor_instance_get. run.
  rewrite Hget. unfold call_predict. simpl. rewrite Hp. reflexivity.
Qed.

(** The [try] block when [predict] returns a mapping. *)
Lemma try_predict_returns vehicle_data w p m :
  predictor_instance w !! "predictor" = Some p →
  predict p (model_dump vehicle_data) = Return (PDict m) →
  predict_maintenance_try model_dump vehicle_data w =
    if eq_str (dict_get m "status") "error" then
      (Raise (HTTPException status.HTTP_400_BAD_REQUEST (dict_get m "error_message")),
       called model_dump vehicle_data w)
    else
      (Return (PDict m),
       with_record {| lvl := INFO; text := "Prediction successful for ";
                      arg := Some (dict_get (predict_mutation p (model_dump vehicle_data))
                                            "Vehicle_ID") |}
         (called model_dump vehicle_data w)).
Proof.
  intros Hget Hp. unfold predict_maintenance_try, predictor_instance_get. run.
  rewrite Hget. unfold call_predict. simpl. rewrite Hp. simpl.
  destruct (eq_str (dict_get m "status") "error"); reflexivity.
Qed.

(** An [HTTPException] leaves [predict_maintenance] as it left the [try]
    block. *)
Lemma except_reraises vehicle_data w e w' :
  predict_maintenance_try model_dump vehicle_data w = (Raise e, w') →
  is_HTTPException e = true →
  predict_maintenance model_dump vehicle_data w = (Raise e, w').
Proof.
  intros Htry He. unfold predict_maintenance, try_except. rewrite Htry.
  unfold predict_maintenance_except. rewrite He. reflexivity.
Qed.

Lemma try_returns vehicle_data w v w' :
  predict_maintenance_try model_dump vehicle_data w = (Return v, w') →
  predict_maintenance model_dump vehicle_data w = (Return v, w').
Proof.
  intros Htry. unfold predict_maintenance, try_except. rewrite Htry. reflexivity.
Qed.

(** ** [POST /predict] *)

(** C1. A request to [/predict] that finds no predictor stored fails with
    status 503 and the detail "Model not loaded. Server may be starting
    up.", which contains "not loaded"; [predictor.predict] is not called
    (the process state is left as it was). *)
Theorem predict_maintenance_not_loaded vehicle_data w :
  predictor_instance w !! "predictor" = None →
  let detail := "Model not loaded. Server may be starting up." in
  predict_maintenance model_dump vehicle_data w = (Raise (HTTPExc 503 (PStr detail)), w) ∧
  contains "not loaded" detail = true ∧
  predict_calls (predict_maintenance model_dump vehicle_data w).2 = predict_calls w.
Proof.
  intros Hget detail.
  assert (Hrun : predict_maintenance model_dump vehicle_data w
                 = (Raise (HTTPExc 503 (PStr detail)), w)).
  { apply except_reraises; [apply try_absent; exact Hget | reflexivity]. }
  rewrite Hrun. repeat split; reflexivity.
Qed.

(** C2, as amended.  With the predictor loaded, when [predict] returns a
    mapping whose ['status'] is ['error'], the request fails with status
    400; the detail is exactly the ['error_message'] of the mapping when
    that is a value other than [None], and the reason phrase "Bad Request"
    when it is [None] or the mapping has none. *)
Theorem predict_maintenance_predictor_error vehicle_data w p m :
  predictor_instance w !! "predictor" = Some p →
  predict p (model_dump vehicle_data) = Return (PDict m) →
  dict_lookup m "status" = Some (PStr "error") →
  ∃ detail,
    (predict_maintenance model_dump vehicle_data w).1 = Raise (HTTPExc 400 detail) ∧
    (∀ msg, dict_lookup m "error_message" = Some msg → msg ≠ PNone → detail = msg) ∧
    (dict_lookup m "error_message" = Some PNone ∨ dict_lookup m "error_message" = None →
     detail = PStr "Bad Request").
Proof.
  intros Hget Hp Hst.
  pose proof (try_predict_returns vehicle_data w p m Hget Hp) as Htry.
  apply eq_str_status in Hst. rewrite Hst in Htry.
  rewrite (except_reraises _ _ _ _ Htry) by reflexivity.
  eexists. split; [reflexivity|]. split.
  - intros msg Hmsg Hnone. rewrite (dict_get_lookup _ _ _ Hmsg).
    destruct msg; [congruence | reflexivity ..].
  - intros [Hmsg|Hmsg].
    + rewrite (dict_get_lookup _ _ _ Hmsg). reflexivity.
    + rewrite (dict_get_absent _ _ Hmsg). reflexivity.
Qed.


(** C4, as amended.  An exception that leaves the [try] block of
    [predict_maintenance] is classified by its class, not by where it was
    raised: an [HTTPException], whatever its status, is re-raised as it
    is; any other instance of [Exception] becomes a 500 whose detail is
    "Prediction failed: " followed by [str(e)]. *)
Theorem predict_maintenance_exception_classes vehicle_data w e w' :
  predict_maintenance_try model_dump vehicle_data w = (Raise e, w') →
  (is_HTTPException e = true →
     predict_maintenance model_dump vehicle_data w = (Raise e, w')) ∧
  (is_HTTPException e = false → is_Exception e = true →
     (predict_maintenance model_dump vehicle_data w).1 =
       Raise (HTTPExc 500 (PStr ("Prediction failed: " ++ exn_str e)))).
Proof.
  intros Htry. split.
  - intros He. apply except_reraises; assumption.
  - intros Hhttp Hexc. unfold predict_maintenance, try_except. rewrite Htry.
    unfold predict_maintenance_except. rewrite Hhttp, Hexc. reflexivity.
Qed.

(** C10, as amended.  With the predictor loaded and [predict] returning a
    mapping [m]: the request fails with status 400 exactly when [m] binds
    ['status'] to the string ['error']; for every other ['status'], and
    when there is none, [m] itself is returned; and when the 400 failure
    is raised without an ['error_message'] in [m], the handler passes
    [None] as detail and the exception carries the reason phrase
    "Bad Request". *)
Theorem predict_maintenance_status_dispatch vehicle_data w p m :
  predictor_instance w !! "predictor" = Some p →
  predict p (model_dump vehicle_data) = Return (PDict m) →
  let outcome := (predict_maintenance model_dump vehicle_data w).1 in
  ((∃ d, outcome = Raise (HTTPExc 400 d)) ↔
     dict_lookup m "status" = Some (PStr "error")) ∧
  (dict_lookup m "status" ≠ Some (PStr "error") → outcome = Return (PDict m)) ∧
  (dict_lookup m "status" = Some (PStr "error") →
   dict_lookup m "error_message" = None →
   outcome = Raise (HTTPExc 400 (PStr "Bad Request"))).
Proof.
  intros Hget Hp outcome.
  pose proof (try_predict_returns vehicle_data w p m Hget Hp) as Htry.
  assert (Hok : dict_lookup m "status" ≠ Some (PStr "error") →
                outcome = Return (PDict m)).
  { intros Hst. apply eq_str_status_false in Hst. rewrite Hst in Htry.
    unfold outcome. rewrite (try_returns _ _ _ _ Htry). reflexivity. }
  assert (Herr : dict_lookup m "status" = Some (PStr "error") →
                 outcome = Raise (HTTPException status.HTTP_400_BAD_REQUEST
                                    (dict_get m "error_message"))).
  { intros Hst. apply eq_str_status in Hst. rewrite Hst in Htry.
    unfold outcome. rewrite (except_reraises _ _ _ _ Htry); reflexivity. }
  split; [split |split].
  - intros [d Hd].
    destruct (dict_lookup m "status") as [[| | | |s| |]|] eqn:Hst;
      try (rewrite Hok in Hd by congruence; discriminate).
    destruct (String.eqb_spec s "error") as [->|Hne]; [reflexivity|].
    rewrite Hok in Hd by congruence. discriminate.
  - intros Hst. rewrite (Herr Hst). eexists. reflexivity.
  - exact Hok.
  - intros Hst Hmsg. rewrite (Herr Hst), (dict_get_absent _ _ Hmsg). reflexivity.
Qed.

(** ** [GET /health] and [GET /model/info] *)

(** C5. Whatever the process state, so whether or not a predictor is
    stored, [/health] succeeds with ['status'] "healthy" and
    ['model_version'] equal to [MODEL_VERSION]. *)
Theorem health_check_healthy w :
  ∃ body,
    health_check MODEL_VERSION w = (Return (PDict body), w) ∧
    dict_lookup body "status" = Some (PStr "healthy") ∧
    dict_lookup body "model_version" = Some (PStr MODEL_VERSION).
Proof. eexists. repeat split. Qed.

(** C6. [/model/info] fails with status 503 when no predictor is stored;
    when [p] is stored it succeeds, its ['features'] are
    [p.feature_columns] as they are, and its ['thresholds'] are
    soh_critical 0.60, soh_warning 0.80, rul_urgent 100 and
    thermal_danger 0.70. *)
#[warnings="-inexact-float"]
Theorem get_model_info_spec w :
  (predictor_instance w !! "predictor" = None →
     get_model_info MODEL_VERSION w = (Raise (HTTPExc 503 (PStr "Models not loaded")), w)) ∧
  (∀ p, predictor_instance w !! "predictor" = Some p →
     ∃ body,
       get_model_info MODEL_VERSION w = (Return (PDict body), w) ∧
       dict_lookup body "features" = Some (feature_columns p) ∧
       dict_lookup body "thresholds" =
         Some (PDict [("soh_critical", PFloat 0.60%float);
                      ("soh_warning", PFloat 0.80%float);
                      ("rul_urgent", PInt 100);
                      ("thermal_danger", PFloat 0.70%float)])).
Proof.
  unfold get_model_info, predictor_instance_get. run. split.
  - intros ->. reflexivity.
  - intros p ->. eexists. repeat split.
Qed.

(** ** Validation of the body of [POST /predict] *)

(** C9. A body that the schema rejects never reaches the handler: the
    request fails with the schema-validation failure, which is not a 500,
    and [predictor.predict] is not called. *)
Theorem post_predict_rejects_invalid_body
    (VehicleData_validate : pyval → option VehicleData) body w :
  VehicleData_validate body = None →
  post_predict model_dump VehicleData_validate body w = (Raise RequestValidationError, w) ∧
  (∀ d, (post_predict model_dump VehicleData_validate body w).1 ≠ Raise (HTTPExc 500 d)) ∧
  predict_calls (post_predict model_dump VehicleData_validate body w).2 = predict_calls w.
Proof.
  intros Hbad. unfold post_predict. rewrite Hbad. repeat split. discriminate.
Qed.

End Handlers.

(** ** Concrete runs of the handlers *)

Lemma predict_maintenance_not_loaded_witness :
  predict_maintenance id sample_vehicle idle =
    (Raise (HTTPExc 503 (PStr "Model not loaded. Server may be starting up.")), idle) ∧
  contains "not loaded" "Model not loaded. Server may be starting up." = true ∧
  predict_calls (predict_maintenance id sample_vehicle idle).2 = predict_calls idle.
Proof. apply (predict_maintenance_not_loaded id sample_vehicle idle). reflexivity. Defined.

Lemma predict_maintenance_predictor_error_witness :
  let m := [("status", PStr "error"); ("error_message", PStr "Missing feature: SoC")] in
  let p := sample_predictor (λ _, Return (PDict m)) in
  (predict_maintenance id sample_vehicle (loaded p)).1 =
    Raise (HTTPExc 400 (PStr "Missing feature: SoC")).
Proof.
  intros m p.
  destruct (predict_maintenance_predictor_error id sample_vehicle (loaded p) p m)
    as (detail & Hraise & Hdetail & _); [reflexivity ..|].
  rewrite Hraise.
  rewrite (Hdetail (PStr "Missing feature: SoC")); [reflexivity | reflexivity | discriminate].
Defined.

(** C2, as stated, fails: [predict] reports the status ['error'] with an
    ['error_message'] that is [None]; the request fails with status 400,
    and the detail is "Bad Request", not the reported [None]. *)
Lemma predict_maintenance_none_message_detail :
  let m := [("status", PStr "error"); ("error_message", PNone)] in
  let p := sample_predictor (λ _, Return (PDict m)) in
  let outcome := (predict_maintenance id sample_vehicle (loaded p)).1 in
  dict_lookup m "error_message" = Some PNone ∧
  outcome = Raise (HTTPExc 400 (PStr "Bad Request")) ∧
  outcome ≠ Raise (HTTPExc 400 PNone).
Proof.
  intros m p outcome. repeat split.
  intros Hd. vm_compute in Hd. discriminate.
Qed.



Lemma predict_maintenance_exception_classes_witness :
  let p := sample_predictor (λ _, Raise (Exc "KeyError" "'SoC'")) in
  (predict_maintenance id sample_vehicle (loaded p)).1 =
    Raise (HTTPExc 500 (PStr "Prediction failed: 'SoC'")).
Proof.
  intros p.
  apply (predict_maintenance_exception_classes id sample_vehicle (loaded p)
           (Exc "KeyError" "'SoC'") (called id sample_vehicle (loaded p)));
    reflexivity.
Defined.

(** C4, as stated, fails: [predict] raises an [HTTPException] with status
    404, which is neither the handler's 503 nor its 400, and the request
    fails with that 404, not with a 500. *)
Lemma predict_maintenance_foreign_http_exception :
  let e := HTTPExc 404 (PStr "Vehicle not found") in
  let p := sample_predictor (λ _, Raise e) in
  let outcome := (predict_maintenance id sample_vehicle (loaded p)).1 in
  predict p (id sample_vehicle) = Raise e ∧
  outcome = Raise e ∧
  ¬ ∃ d, outcome = Raise (HTTPExc 500 d).
Proof.
  intros e p outcome. repeat split.
  intros [d Hd]. vm_compute in Hd. discriminate.
Qed.

Lemma predict_maintenance_status_dispatch_witness :
  let m := [("status", PStr "error")] in
  let p := sample_predictor (λ _, Return (PDict m)) in
  (predict_maintenance id sample_vehicle (loaded p)).1 =
    Raise (HTTPExc 400 (PStr "Bad Request")).
Proof.
  intros m p.
  apply (predict_maintenance_status_dispatch id sample_vehicle (loaded p) p m);
    reflexivity.
Defined.

(** C10, as stated, fails in its last part: [predict] returns a mapping with
    ['status'] ['error'] and no ['error_message']; the 400 failure is raised,
    and its detail is "Bad Request", not [None]. *)
Lemma predict_maintenance_absent_message_detail :
  let m := [("status", PStr "error")] in
  let p := sample_predictor (λ _, Return (PDict m)) in
  let outcome := (predict_maintenance id sample_vehicle (loaded p)).1 in
  dict_lookup m "error_message" = None ∧
  outcome = Raise (HTTPExc 400 (PStr "Bad Request")) ∧
  outcome ≠ Raise (HTTPExc 400 PNone).
Proof.
  intros m p outcome. repeat split.
  intros Hd. vm_compute in Hd. discriminate.
Qed.

#[warnings="-inexact-float"]
Lemma get_model_info_spec_witness :
  let p := sample_predictor (λ _, Return PNone) in
  get_model_info "1.0.0" idle = (Raise (HTTPExc 503 (PStr "Models not loaded")), idle) ∧
  (∃ body,
     get_model_info "1.0.0" (loaded p) = (Return (PDict body), loaded p) ∧
     dict_lookup body "features" = Some (PList [PStr "SoC"; PStr "Charge_Cycles"]) ∧
     dict_lookup body "thresholds" =
       Some (PDict [("soh_critical", PFloat 0.6%float);
                    ("soh_warning", PFloat 0.8%float);
                    ("rul_urgent", PInt 100);
                    ("thermal_danger", PFloat 0.7%float)])).
Proof.
  intros p. split.
  - apply (proj1 (get_model_info_spec "1.0.0" idle)). reflexivity.
  - apply (proj2 (get_model_info_spec "1.0.0" (loaded p)) p). reflexivity.
Defined.

Lemma post_predict_rejects_invalid_body_witness :
  let body := PDict [("Charge_Cycles", PInt 412)] in
  post_predict id requires_Vehicle_ID body idle = (Raise RequestValidationError, idle) ∧
  (∀ d, (post_predict id requires_Vehicle_ID body idle).1 ≠ Raise (HTTPExc 500 d)) ∧
  predict_calls (post_predict id requires_Vehicle_ID body idle).2 = predict_calls idle.
Proof.
  intros body.
  apply (post_predict_rejects_invalid_body id requires_Vehicle_ID body idle).
  reflexivity.
Defined.

(** ** The lifespan hook and the shared dictionary *)

Section Lifecycle.

Context (MODEL_VERSION : string) {VehicleData : Type}
        (model_dump : VehicleData → pydict).

Local Abbreviation handle := (handle MODEL_VERSION model_dump).
Local Abbreviation step := (step MODEL_VERSION model_dump).

(** No handler writes [predictor_instance] or constructs a predictor. *)
Lemma handle_frame r w :
  predictor_instance (handle r w).2 = predictor_instance w ∧
  instances (handle r w).2 = instances w.
Proof.
  destruct r as [vehicle_data| | |]; simpl.
  - unfold predict_maintenance, try_except, predict_maintenance_try,
      predict_maintenance_except, predictor_instance_get, call_predict, py_get.
    run.
    destruct (predictor_instance w !! "predictor") as [p|]; simpl; [|done].
    destruct (predict p (model_dump vehicle_data)) as [[| | | | | |m]|[| |]];
      simpl; try done.
    destruct (eq_str (dict_get m "status") "error"); done.
  - done.
  - done.
  - unfold get_model_info, predictor_instance_get. run.
    destruct (predictor_instance w !! "predictor"); done.
Qed.

(** Startup when the constructor returns [p]. *)
Lemma lifespan_startup_returns p w :
  ∃ w', lifespan_startup (Return p) w = (Return tt, w') ∧
        predictor_instance w' = <["predictor" := p]> (predictor_instance w) ∧
        instances w' = (instances w ++ [p])%list.
Proof. eexists. repeat split. Qed.

(** Startup when the constructor raises [e]. *)
Lemma lifespan_startup_raises e w :
  ∃ w', lifespan_startup (Raise e) w = (Raise e, w') ∧
        predictor_instance w' = predictor_instance w ∧
        instances w' = instances w.
Proof.
  unfold lifespan_startup, try_except, construct. run.
  destruct (is_Exception e); eexists; repeat split.
Qed.

Lemma lifespan_shutdown_clears w :
  (lifespan_shutdown w).1 = Return tt ∧
  predictor_instance (lifespan_shutdown w).2 = ∅ ∧
  instances (lifespan_shutdown w).2 = instances w.
Proof. repeat split. Qed.

(** [lifecycle_inv] holds of a fresh process and every step keeps it. *)
Lemma lifecycle_inv_boot new t : lifecycle_inv new (boot t).
Proof. split; reflexivity. Qed.

Lemma lifecycle_inv_step new s s' :
  step new s s' → lifecycle_inv new s → lifecycle_inv new s'.
Proof.
  unfold lifecycle_inv.
  destruct 1 as [w w' Hrun|w e w' Hrun|ph r t w Hph|w]; simpl.
  - intros [Hstore Hinst]. destruct new as [p|e].
    + destruct (lifespan_startup_returns p w) as (w1 & Hw1 & Hs & Hi).
      rewrite Hw1 in Hrun. injection Hrun as <-.
      exists p. rewrite Hs, Hi, Hstore, Hinst. rewrite insert_empty. done.
    + destruct (lifespan_startup_raises e w) as (w1 & Hw1 & _).
      rewrite Hw1 in Hrun. discriminate.
  - intros [Hstore Hinst]. destruct new as [p|e0].
    + destruct (lifespan_startup_returns p w) as (w1 & Hw1 & _).
      rewrite Hw1 in Hrun. discriminate.
    + destruct (lifespan_startup_raises e0 w) as (w1 & Hw1 & Hs & Hi).
      rewrite Hw1 in Hrun. injection Hrun as _ <-.
      rewrite Hs, Hi. done.
  - destruct (handle_frame r (at_time t w)) as [-> ->]. simpl. done.
  - intros (p & Hnew & _ & Hinst). exists p. done.
Qed.

Lemma lifecycle_inv_reachable new t s :
  rtc (step new) (boot t) s → lifecycle_inv new s.
Proof.
  intros Hrun. generalize (lifecycle_inv_boot new t).
  induction Hrun as [s|s1 s2 s3 Hstep Hrun IH]; [tauto|].
  intros Hinv. apply IH. eapply lifecycle_inv_step; eassumption.
Qed.

(** C7. The startup hook re-raises whatever the construction of the
    predictor raised and stores nothing; the process then never serves and
    nothing runs once it has aborted.  When the construction returns [p],
    startup succeeds, and whenever the process is serving, [p] is the one
    predictor constructed and the one entry stored.  The shutdown hook
    empties the dictionary. *)
Theorem lifespan_fail_fast :
  (∀ e w, ∃ w', lifespan_startup (Raise e) w = (Raise e, w') ∧
                predictor_instance w' = predictor_instance w ∧
                instances w' = instances w) ∧
  (∀ e t s, rtc (step (Raise e)) (boot t) s →
            s.1 ≠ Serving ∧ predictor_instance s.2 = ∅ ∧
            (s.1 = Aborted → ∀ s', ¬ step (Raise e) s s')) ∧
  (∀ p t, ∃ w', lifespan_startup (Return p) (boot t).2 = (Return tt, w') ∧
                predictor_instance w' = {["predictor" := p]} ∧
                instances w' = [p]) ∧
  (∀ p t s, rtc (step (Return p)) (boot t) s → s.1 = Serving →
            predictor_instance s.2 = {["predictor" := p]} ∧ instances s.2 = [p]) ∧
  (∀ w, (lifespan_shutdown w).1 = Return tt ∧
        predictor_instance (lifespan_shutdown w).2 = ∅).
Proof.
  split; [exact lifespan_startup_raises|].
  split; [|split; [|split]].
  - intros e t [ph w] Hrun. apply lifecycle_inv_reachable in Hrun.
    unfold lifecycle_inv in Hrun. simpl in *. repeat split.
    + intros ->. destruct Hrun as (p & Hp & _). discriminate.
    + destruct ph; [tauto | | | tauto];
        destruct Hrun as (p & Hp & _); discriminate.
    + intros -> s' Hstep. inversion Hstep; congruence.
  - intros p t.
    destruct (lifespan_startup_returns p (boot t).2) as (w' & Hw' & Hs & Hi).
    exists w'. rewrite Hs, Hi. simpl. rewrite insert_empty. done.
  - intros p t [ph w] Hrun Hph. apply lifecycle_inv_reachable in Hrun.
    unfold lifecycle_inv in Hrun. simpl in *. subst ph.
    destruct Hrun as (p' & Hp' & Hs & Hi). injection Hp' as <-. done.
  - intros w. split; reflexivity.
Qed.

(** C8. No handler writes [predictor_instance] or constructs a predictor;
    along a run the dictionary changes only in the startup step and in the
    shutdown step; and in every state of a run at most one predictor was
    constructed, the dictionary is empty when it has no ["predictor"], and
    a handler that finds a predictor finds the one object the constructor
    returned, stored alone. *)
Theorem predictor_instance_read_only :
  (∀ r w, predictor_instance (handle r w).2 = predictor_instance w ∧
          instances (handle r w).2 = instances w) ∧
  (∀ new s s', step new s s' →
               predictor_instance s'.2 ≠ predictor_instance s.2 →
               (s.1 = Starting ∧ s'.1 = Serving) ∨
               (s.1 = Serving ∧ s'.1 = Stopped)) ∧
  (∀ new t s, rtc (step new) (boot t) s →
              (length (instances s.2) ≤ 1)%nat ∧
              (predictor_instance s.2 !! "predictor" = None →
                 predictor_instance s.2 = ∅) ∧
              (∀ p, predictor_instance s.2 !! "predictor" = Some p →
                    new = Return p ∧ instances s.2 = [p] ∧
                    predictor_instance s.2 = {["predictor" := p]})).
Proof.
  split; [exact handle_frame|]. split.
  - intros new s s' Hstep Hne.
    destruct Hstep as [w w' Hrun|w e w' Hrun|ph r t w Hph|w]; simpl in *.
    + left. done.
    + exfalso. apply Hne. destruct new as [p|e0].
      * destruct (lifespan_startup_returns p w) as (w1 & Hw1 & _).
        rewrite Hw1 in Hrun. discriminate.
      * destruct (lifespan_startup_raises e0 w) as (w1 & Hw1 & Hs & _).
        rewrite Hw1 in Hrun. injection Hrun as _ <-. exact Hs.
    + exfalso. apply Hne. destruct (handle_frame r (at_time t w)) as [-> _]. done.
    + right. done.
  - intros new t [ph w] Hrun. apply lifecycle_inv_reachable in Hrun.
    unfold lifecycle_inv in Hrun. simpl in *.
    assert (Hcases :
      (predictor_instance w = ∅ ∧ (length (instances w) ≤ 1)%nat) ∨
      (∃ p, new = Return p ∧ predictor_instance w = {["predictor" := p]} ∧
            instances w = [p])).
    { destruct ph.
      - left. destruct Hrun as [-> ->]. simpl. split; [done | lia].
      - right. exact Hrun.
      - left. destruct Hrun as (p & _ & -> & ->). simpl. split; [done | lia].
      - left. destruct Hrun as [-> ->]. simpl. split; [done | lia]. }
    destruct Hcases as [[Hs Hl]|(p & Hnew & Hs & Hi)].
    + rewrite Hs. split; [exact Hl|]. split; [done|].
      intros p Hp. rewrite lookup_empty in Hp. discriminate.
    + rewrite Hs, Hi. simpl. split; [lia|]. split.
      * rewrite lookup_singleton_eq. discriminate.
      * intros p'. rewrite lookup_singleton_eq. intros [= <-]. done.
Qed.

End Lifecycle.

(** ** Concrete runs of the process *)

(** A startup that raises and aborts, and a startup that succeeds. *)
Lemma lifespan_fail_fast_witness :
  let e := Exc "FileNotFoundError" "models/soh_model.pkl" in
  let p := sample_predictor (λ _, Return PNone) in
  let t := "2024-05-01T12:00:00" in
  let aborted := (Aborted, (lifespan_startup (Raise e) (boot t).2).2) in
  let serving := (Serving, (lifespan_startup (Return p) (boot t).2).2) in
  (aborted.1 ≠ Serving ∧ predictor_instance aborted.2 = ∅ ∧
   (aborted.1 = Aborted → ∀ s', ¬ step "1.0.0" id (Raise e) aborted s')) ∧
  (predictor_instance serving.2 = {["predictor" := p]} ∧ instances serving.2 = [p]).
Proof.
  intros e p t aborted serving. split.
  - apply (proj1 (proj2 (lifespan_fail_fast "1.0.0" id)) e t aborted).
    eapply rtc_l; [|apply rtc_refl]. eapply step_startup_raise. reflexivity.
  - apply (proj1 (proj2 (proj2 (proj2 (lifespan_fail_fast "1.0.0" id)))) p t serving);
      [|reflexivity].
    eapply rtc_l; [|apply rtc_refl]. apply step_startup_ok. reflexivity.
Defined.

(** Startup, then one prediction: the handler finds the constructed
    predictor, and it is still the only one afterwards. *)
Lemma predictor_instance_read_only_witness :
  let p := sample_predictor (λ _, Return (PDict [("status", PStr "success")])) in
  let t := "2024-05-01T12:00:00" in
  let w1 := (lifespan_startup (Return p) (boot t).2).2 in
  let w2 := (handle "1.0.0" id (POST_predict sample_vehicle)
               (at_time "2024-05-01T12:00:07" w1)).2 in
  (length (instances w2) ≤ 1)%nat ∧
  (predictor_instance w2 !! "predictor" = None → predictor_instance w2 = ∅) ∧
  (∀ q, predictor_instance w2 !! "predictor" = Some q →
        Return p = Return q ∧ instances w2 = [q] ∧
        predictor_instance w2 = {["predictor" := q]}).
Proof.
  intros p t w1 w2.
  apply (proj2 (proj2 (predictor_instance_read_only "1.0.0" id)) (Return p) t (Serving, w2)).
  eapply rtc_l; [apply step_startup_ok; reflexivity|].
  eapply rtc_l; [|apply rtc_refl].
  apply (step_request "1.0.0" pydict id (Return p) Serving (POST_predict sample_vehicle)).
  discriminate.
Defined.

(** * Further properties of the handlers *)

Section Outcomes.

Context (MODEL_VERSION : string) {VehicleData : Type}
        (model_dump : VehicleData → pydict).

(** The [try] block when [predict] returns something that is not a
    mapping. *)
Lemma try_predict_non_mapping vehicle_data w p v :
  predictor_instance w !! "predictor" = Some p →
  predict p (model_dump vehicle_data) = Return v →
  is_dict v = false →
  predict_maintenance_try model_dump vehicle_data w =
    (Raise (no_get v), called model_dump vehicle_data w).
Proof.
  intros Hget Hp Hv. unfold predict_maintenance_try, predictor_instance_get. run.
  rewrite Hget. unfold call_predict. simpl. rewrite Hp.
  destruct v; try reflexivity. discriminate.
Qed.

(** The second [except] clause. *)
Lemma except_converts vehicle_data w e w' :
  predict_maintenance_try model_dump vehicle_data w = (Raise e, w') →
  is_HTTPException e = false →
  is_Exception e = true →
  predict_maintenance model_dump vehicle_data w =
    (Raise (HTTPExc 500 (PStr ("Prediction failed: " ++ exn_str e))),
     with_record (error_record e) w').
Proof.
  intros Htry Hhttp Hexc. unfold predict_maintenance, try_except. rewrite Htry.
  unfold predict_maintenance_except. rewrite Hhttp, Hexc. reflexivity.
Qed.

(** No clause matches. *)
Lemma except_passes vehicle_data w e w' :
  predict_maintenance_try model_dump vehicle_data w = (Raise e, w') →
  is_Exception e = false →
  predict_maintenance model_dump vehicle_data w = (Raise e, w').
Proof.
  intros Htry Hexc. unfold predict_maintenance, try_except. rewrite Htry.
  unfold predict_maintenance_except. rewrite Hexc.
  destruct e; reflexivity.
Qed.

(** What [predict_maintenance] does with a predictor, by the outcome of
    [predict]. *)
Lemma predict_maintenance_loaded vehicle_data w p :
  predictor_instance w !! "predictor" = Some p →
  let d := model_dump vehicle_data in
  let w1 := called model_dump vehicle_data w in
  predict_maintenance model_dump vehicle_data w =
    match predict p d with
    | Return v =>
        if is_dict v then
          if eq_str (match v with PDict m => dict_get m "status" | _ => PNone end) "error"
          then (Raise (HTTPException status.HTTP_400_BAD_REQUEST
                         (match v with PDict m => dict_get m "error_message" | _ => PNone end)),
                w1)
          else (Return v, with_record (successful_record (predict_mutation p d)) w1)
        else (Raise (HTTPExc 500 (PStr ("Prediction failed: " ++ exn_str (no_get v)))),
              with_record (error_record (no_get v)) w1)
    | Raise e =>
        if is_HTTPException e then (Raise e, w1)
        else if is_Exception e
             then (Raise (HTTPExc 500 (PStr ("Prediction failed: " ++ exn_str e))),
                   with_record (error_record e) w1)
             else (Raise e, w1)
    end.
Proof.
  intros Hget d w1.
  destruct (predict p d) as [v|e] eqn:Hp.
  - destruct (is_dict v) eqn:Hv.
    + destruct v as [| | | | | |m]; try discriminate.
      pose proof (try_predict_returns model_dump vehicle_data w p m Hget Hp) as Htry.
      destruct (eq_str (dict_get m "status") "error").
      * apply except_reraises; [exact Htry | reflexivity].
      * apply try_returns. exact Htry.
    + apply except_converts; [|reflexivity ..].
      apply (try_predict_non_mapping _ _ p); assumption.
  - pose proof (try_predict_raises model_dump vehicle_data w p e Hget Hp) as Htry.
    destruct (is_HTTPException e) eqn:Hhttp.
    + apply except_reraises; assumption.
    + destruct (is_Exception e) eqn:Hexc.
      * apply except_converts; assumption.
      * apply except_passes; assumption.
Qed.

(** With a predictor stored, [predict] is called once, whatever comes of
    it. *)
Lemma predict_maintenance_calls_loaded vehicle_data w p :
  predictor_instance w !! "predictor" = Some p →
  predict_calls (predict_maintenance model_dump vehicle_data w).2 =
    (predict_calls w ++ [model_dump vehicle_data])%list.
Proof.
  intros Hget. rewrite (predict_maintenance_loaded vehicle_data w p Hget).
  destruct (predict p (model_dump vehicle_data)) as [v|e].
  - destruct (is_dict v); [destruct (eq_str _ "error")|]; reflexivity.
  - destruct (is_HTTPException e); [|destruct (is_Exception e)]; reflexivity.
Qed.

(** X1. A request to [/predict] calls [predictor.predict] exactly once, with
    [vehicle_data.model_dump()], when a predictor is stored, whatever the
    call returns or raises, and not at all otherwise. *)
Theorem predict_maintenance_calls_once vehicle_data w :
  predict_calls (predict_maintenance model_dump vehicle_data w).2 =
    (predict_calls w ++
     match predictor_instance w !! "predictor" with
     | Some _ => [model_dump vehicle_data]
     | None => []
     end)%list.
Proof.
  destruct (predictor_instance w !! "predictor") as [p|] eqn:Hget.
  - apply (predict_maintenance_calls_loaded vehicle_data w p Hget).
  - rewrite (except_reraises model_dump vehicle_data w _ w
               (try_absent model_dump vehicle_data w Hget) eq_refl).
    simpl. rewrite app_nil_r. reflexivity.
Qed.

(** X2. When [predict] returns a value that is not a mapping ([None], a
    list, a string, ...), the value is not returned: [result.get] raises
    [AttributeError], and the request fails with status 500 and the detail
    "Prediction failed: '<type>' object has no attribute 'get'", after an
    ERROR record. *)
Theorem predict_maintenance_non_mapping vehicle_data w p v :
  predictor_instance w !! "predictor" = Some p →
  predict p (model_dump vehicle_data) = Return v →
  is_dict v = false →
  (predict_maintenance model_dump vehicle_data w).1 =
    Raise (HTTPExc 500 (PStr ("Prediction failed: '" ++ type_name v ++
                              "' object has no attribute 'get'"))) ∧
  records (predict_maintenance model_dump vehicle_data w).2 =
    (records w ++ [processing_record (model_dump vehicle_data);
                   error_record (no_get v)])%list.
Proof.
  intros Hget Hp Hv.
  rewrite (predict_maintenance_loaded vehicle_data w p Hget), Hp, Hv. simpl.
  split; [reflexivity|]. rewrite <- app_assoc. reflexivity.
Qed.

(** X3. An ordinary exception never leaves [predict_maintenance]: the
    handler returns a mapping, or raises an [HTTPException], or lets through
    an exception outside [Exception] that [predict] raised. *)
Theorem predict_maintenance_outcomes vehicle_data w :
  let outcome := (predict_maintenance model_dump vehicle_data w).1 in
  (∃ m, outcome = Return (PDict m)) ∨
  (∃ code detail, outcome = Raise (HTTPExc code detail)) ∨
  (∃ p cls msg,
     predictor_instance w !! "predictor" = Some p ∧
     predict p (model_dump vehicle_data) = Raise (BaseExc cls msg) ∧
     outcome = Raise (BaseExc cls msg)).
Proof.
  intros outcome. unfold outcome.
  destruct (predictor_instance w !! "predictor") as [p|] eqn:Hget.
  - rewrite (predict_maintenance_loaded vehicle_data w p Hget).
    destruct (predict p (model_dump vehicle_data)) as [v|e] eqn:Hp.
    + destruct v as [| | | | | |m]; simpl; try solve [right; left; eauto].
      destruct (eq_str (dict_get m "status") "error"); simpl.
      * right. left. unfold HTTPException. eauto.
      * left. eauto.
    + destruct e as [c d|cls msg|cls msg]; simpl.
      * right. left. eauto.
      * right. left. eauto.
      * right. right. exists p, cls, msg. auto.
  - rewrite (except_reraises model_dump vehicle_data w _ w
               (try_absent model_dump vehicle_data w Hget) eq_refl).
    right. left. simpl. eauto.
Qed.

(** X4. An exception outside [Exception] that [predict] raises
    ([KeyboardInterrupt], [SystemExit], ...) leaves the handler as it is:
    it is not turned into a 500 and no ERROR record is logged. *)
Theorem predict_maintenance_base_exception vehicle_data w p e :
  predictor_instance w !! "predictor" = Some p →
  predict p (model_dump vehicle_data) = Raise e →
  is_Exception e = false →
  (predict_maintenance model_dump vehicle_data w).1 = Raise e ∧
  records (predict_maintenance model_dump vehicle_data w).2 =
    (records w ++ [processing_record (model_dump vehicle_data)])%list.
Proof.
  intros Hget Hp Hexc.
  rewrite (predict_maintenance_loaded vehicle_data w p Hget), Hp, Hexc.
  destruct e; try discriminate. split; reflexivity.
Qed.

(** X5. What a request to [/predict] logs when a predictor is stored.  The
    first record carries [vehicle_dict.get('Vehicle_ID')] as the dictionary
    is before the call, [None] when the field is missing.  A success logs a
    second INFO record, whose ['Vehicle_ID'] is read again from the same
    dictionary, as the call to [predict] left it; a mapping with status
    ['error'] and an [HTTPException] raised by [predict] log only the first
    record; any other [Exception] raised by [predict] logs an ERROR record
    with [str(e)]. *)
Theorem predict_maintenance_log vehicle_data w p :
  predictor_instance w !! "predictor" = Some p →
  let d := model_dump vehicle_data in
  let logged := records (predict_maintenance model_dump vehicle_data w).2 in
  (∀ m, predict p d = Return (PDict m) →
        dict_lookup m "status" ≠ Some (PStr "error") →
        logged = (records w ++ [processing_record d;
                                successful_record (predict_mutation p d)])%list) ∧
  (∀ m, predict p d = Return (PDict m) →
        dict_lookup m "status" = Some (PStr "error") →
        logged = (records w ++ [processing_record d])%list) ∧
  (∀ e, predict p d = Raise e → is_HTTPException e = true →
        logged = (records w ++ [processing_record d])%list) ∧
  (∀ e, predict p d = Raise e → is_HTTPException e = false → is_Exception e = true →
        logged = (records w ++ [processing_record d; error_record e])%list).
Proof.
  intros Hget d logged. unfold logged.
  rewrite (predict_maintenance_loaded vehicle_data w p Hget). fold d.
  repeat split.
  - intros m -> Hst. apply eq_str_status_false in Hst. simpl. rewrite Hst.
    simpl. rewrite <- app_assoc. reflexivity.
  - intros m -> Hst. apply eq_str_status in Hst. simpl. rewrite Hst. reflexivity.
  - intros e -> ->. reflexivity.
  - intros e -> -> ->. simpl. rewrite <- app_assoc. reflexivity.
Qed.

(** X6. [GET /], [GET /health] and [GET /model/info] leave the process as
    it is: they never call [predictor.predict], log nothing and do not touch
    [predictor_instance]. *)
Theorem info_handlers_leave_state w :
  (root MODEL_VERSION w).2 = w ∧
  (health_check MODEL_VERSION w).2 = w ∧
  (get_model_info MODEL_VERSION w).2 = w.
Proof.
  repeat split.
  unfold get_model_info, predictor_instance_get. run.
  destruct (predictor_instance w !! "predictor"); reflexivity.
Qed.

(** X7. The version is the same everywhere: ['version'] of [GET /],
    ['model_version'] of [GET /health], ['model_version'] of
    [GET /model/info] when it succeeds, and the version of the application
    object are all [MODEL_VERSION]. *)
Theorem version_everywhere w :
  version (app MODEL_VERSION) = MODEL_VERSION ∧
  (∃ body, (root MODEL_VERSION w).1 = Return (PDict body) ∧
           dict_lookup body "version" = Some (PStr MODEL_VERSION)) ∧
  (∃ body, (health_check MODEL_VERSION w).1 = Return (PDict body) ∧
           dict_lookup body "model_version" = Some (PStr MODEL_VERSION)) ∧
  (∀ v, (get_model_info MODEL_VERSION w).1 = Return v →
        ∃ body, v = PDict body ∧
                dict_lookup body "model_version" = Some (PStr MODEL_VERSION)).
Proof.
  split; [reflexivity|]. split; [eexists; split; reflexivity|].
  split; [eexists; split; reflexivity|].
  intros v. unfold get_model_info, predictor_instance_get. run.
  destruct (predictor_instance w !! "predictor"); simpl; [|discriminate].
  intros [= <-]. eexists. split; reflexivity.
Qed.

Ltac find_in :=
  first [apply Exists_cons_hd; reflexivity | apply Exists_cons_tl; find_in].

(** X8. The hints of [GET /] are accurate: ['docs'] is the [docs_url] of
    the application, every entry of ['endpoints'] is "METHOD path" of a
    registered route, and every registered route other than [/] itself has
    such an entry. *)
Theorem root_hints_match_routes w :
  ∃ body endpoints,
    root MODEL_VERSION w = (Return (PDict body), w) ∧
    dict_lookup body "docs" = Some (PStr (docs_url (app MODEL_VERSION))) ∧
    dict_lookup body "endpoints" = Some (PDict endpoints) ∧
    Forall (λ hint, ∃ r, r ∈ routes ∧ hint.2 = PStr (method r ++ " " ++ path r))
           endpoints ∧
    Forall (λ r, path r = "/" ∨
                 ∃ hint, hint ∈ endpoints ∧ hint.2 = PStr (method r ++ " " ++ path r))
           routes.
Proof.
  eexists. eexists. split; [reflexivity|]. split; [reflexivity|].
  split; [reflexivity|]. split.
  - repeat (apply List.Forall_cons; [apply Exists_exists; unfold routes; find_in|]).
    apply List.Forall_nil.
  - unfold routes.
    repeat (apply List.Forall_cons;
            [first [left; reflexivity | right; apply Exists_exists; find_in]|]).
    apply List.Forall_nil.
Qed.

End Outcomes.

(** * Further properties of the process *)

Section Availability.

Context (MODEL_VERSION : string) {VehicleData : Type}
        (model_dump : VehicleData → pydict).

Local Abbreviation step := (step MODEL_VERSION model_dump).

(** X9. While the process is serving, the predictor that the constructor
    returned at startup is the one every request reaches: [/model/info]
    succeeds with its [feature_columns], and [/predict] calls it and answers
    by what it returns or raises, never with the handler's own "not loaded"
    failure. *)
Theorem serving_reaches_predictor new t w :
  rtc (step new) (boot t) (Serving, w) →
  ∃ p, new = Return p ∧
       (∃ body, get_model_info MODEL_VERSION w = (Return (PDict body), w) ∧
                dict_lookup body "features" = Some (feature_columns p)) ∧
       (∀ vehicle_data,
          predict_calls (predict_maintenance model_dump vehicle_data w).2 =
            (predict_calls w ++ [model_dump vehicle_data])%list ∧
          (∀ m, predict p (model_dump vehicle_data) = Return (PDict m) →
                dict_lookup m "status" ≠ Some (PStr "error") →
                (predict_maintenance model_dump vehicle_data w).1 = Return (PDict m))).
Proof.
  intros Hrun. apply lifecycle_inv_reachable in Hrun.
  destruct Hrun as (p & Hnew & Hstore & _). simpl in *.
  assert (Hget : predictor_instance w !! "predictor" = Some p).
  { rewrite Hstore. apply lookup_singleton_eq. }
  exists p. split; [exact Hnew|]. split.
  - unfold get_model_info, predictor_instance_get. run. rewrite Hget.
    eexists. split; reflexivity.
  - intros vehicle_data. split.
    + apply (predict_maintenance_calls_loaded model_dump vehicle_data w p Hget).
    + intros m Hp Hst.
      rewrite (predict_maintenance_loaded model_dump vehicle_data w p Hget), Hp.
      apply eq_str_status_false in Hst. simpl. rewrite Hst. reflexivity.
Qed.

(** X10. Outside the serving phase, that is before startup has completed
    and after shutdown, [/predict] and [/model/info] both fail with status
    503 and change nothing, while [/health] still succeeds. *)
Theorem not_serving_unavailable new t ph w :
  rtc (step new) (boot t) (ph, w) →
  ph ≠ Serving →
  (∀ vehicle_data,
     predict_maintenance model_dump vehicle_data w =
       (Raise (HTTPExc 503 (PStr "Model not loaded. Server may be starting up.")), w)) ∧
  get_model_info MODEL_VERSION w = (Raise (HTTPExc 503 (PStr "Models not loaded")), w) ∧
  (∃ body, health_check MODEL_VERSION w = (Return (PDict body), w)).
Proof.
  intros Hrun Hph. apply lifecycle_inv_reachable in Hrun.
  assert (Hget : predictor_instance w !! "predictor" = None).
  { unfold lifecycle_inv in Hrun. simpl in Hrun.
    destruct ph; [destruct Hrun as [-> _] | congruence
                 | destruct Hrun as (p & _ & -> & _) | destruct Hrun as [-> _]];
      apply lookup_empty. }
  split; [|split].
  - intros vehicle_data.
    apply except_reraises; [apply try_absent; exact Hget | reflexivity].
  - unfold get_model_info, predictor_instance_get. run. rewrite Hget. reflexivity.
  - eexists. reflexivity.
Qed.

End Availability.

(** * The lifespan log and the cross-origin policy *)

(** X11. What the startup part of [lifespan] logs.  A construction that
    raises an [Exception] is logged as one ERROR record, "Failed to load
    models", which does not carry the exception; an exception outside
    [Exception] is not logged at all; a construction that returns is logged
    as "Models loaded ". *)
Theorem lifespan_startup_log new w :
  records (lifespan_startup new w).2 =
    (records w ++
     {| lvl := INFO; text := " Starting up API server..."; arg := None |} ::
     match new with
     | Return _ => [{| lvl := INFO; text := "Models loaded "; arg := None |}]
     | Raise e =>
         if is_Exception e
         then [{| lvl := ERROR; text := "Failed to load models"; arg := None |}]
         else []
     end)%list.
Proof.
  unfold lifespan_startup, try_except, construct. run.
  destruct new as [p|e]; simpl.
  - rewrite <- app_assoc. reflexivity.
  - destruct (is_Exception e); simpl; [rewrite <- app_assoc|]; reflexivity.
Qed.

Lemma count_slash_app s t :
  count_slash (s ++ t) = (count_slash s + count_slash t)%nat.
Proof.
  induction s as [|c s IH]; simpl; [reflexivity|]. rewrite IH. lia.
Qed.

(** X12. The cross-origin policy admits exactly one origin string, the
    configured URL with its path [/openapi.json].  An [Origin] header is a
    scheme, a host and an optional port, none of which contains a slash, so
    no such header is admitted. *)
Theorem cors_admits_no_origin_header scheme host port :
  count_slash scheme = 0%nat →
  count_slash host = 0%nat →
  count_slash (default "" port) = 0%nat →
  is_allowed_origin cors (origin_header scheme host port) = false ∧
  (∀ origin, is_allowed_origin cors origin = true ↔
             origin = "https://ev-fleet-predictive-maintenance-backend.onrender.com/openapi.json").
Proof.
  intros Hscheme Hhost Hport.
  assert (Hiff : ∀ origin, is_allowed_origin cors origin = true ↔
            origin = "https://ev-fleet-predictive-maintenance-backend.onrender.com/openapi.json").
  { intros origin. unfold is_allowed_origin, cors, str_in. simpl.
    rewrite orb_false_r. apply String.eqb_eq. }
  split; [|exact Hiff].
  destruct (is_allowed_origin cors (origin_header scheme host port)) eqn:Hallowed;
    [|reflexivity].
  apply Hiff in Hallowed. apply (f_equal count_slash) in Hallowed.
  unfold origin_header in Hallowed. rewrite !count_slash_app in Hallowed.
  rewrite Hscheme, Hhost in Hallowed.
  assert (Hp : count_slash (match port with Some p => ":" ++ p | None => "" end) = 0%nat).
  { destruct port as [p|]; simpl in *; [exact Hport | reflexivity]. }
  rewrite Hp in Hallowed. vm_compute in Hallowed. discriminate.
Qed.

(** * Concrete runs, continued *)

Lemma predict_maintenance_non_mapping_witness :
  let p := sample_predictor (λ _, Return PNone) in
  (predict_maintenance id sample_vehicle (loaded p)).1 =
    Raise (HTTPExc 500
             (PStr "Prediction failed: 'NoneType' object has no attribute 'get'")) ∧
  records (predict_maintenance id sample_vehicle (loaded p)).2 =
    [processing_record sample_vehicle; error_record (no_get PNone)].
Proof.
  intros p.
  apply (predict_maintenance_non_mapping id sample_vehicle (loaded p) p PNone);
    reflexivity.
Defined.

Lemma predict_maintenance_base_exception_witness :
  let e := BaseExc "KeyboardInterrupt" "" in
  let p := sample_predictor (λ _, Raise e) in
  (predict_maintenance id sample_vehicle (loaded p)).1 = Raise e ∧
  records (predict_maintenance id sample_vehicle (loaded p)).2 =
    [processing_record sample_vehicle].
Proof.
  intros e p.
  apply (predict_maintenance_base_exception id sample_vehicle (loaded p) p e);
    reflexivity.
Defined.

(** The second record shows the identifier as [predict] left it. *)
Lemma predict_maintenance_log_witness :
  records (predict_maintenance id sample_vehicle (loaded renaming_predictor)).2 =
    [{| lvl := INFO; text := "Processing prediction for ";
        arg := Some (PStr "EV-001") |};
     {| lvl := INFO; text := "Prediction successful for ";
        arg := Some (PStr "ev-001") |}].
Proof.
  apply (proj1 (predict_maintenance_log id sample_vehicle (loaded renaming_predictor)
                  renaming_predictor eq_refl) [("status", PStr "success")]);
    [reflexivity | discriminate].
Defined.

Lemma serving_reaches_predictor_witness :
  let p := sample_predictor (λ _, Return (PDict [("status", PStr "success")])) in
  let t := "2024-05-01T12:00:00" in
  let w := (lifespan_startup (Return p) (boot t).2).2 in
  ∃ q, Return p = Return q ∧
       (∃ body, get_model_info "1.0.0" w = (Return (PDict body), w) ∧
                dict_lookup body "features" = Some (feature_columns q)) ∧
       (∀ vehicle_data : pydict,
          predict_calls (predict_maintenance id vehicle_data w).2 =
            (predict_calls w ++ [id vehicle_data])%list ∧
          (∀ m, predict q (id vehicle_data) = Return (PDict m) →
                dict_lookup m "status" ≠ Some (PStr "error") →
                (predict_maintenance id vehicle_data w).1 = Return (PDict m))).
Proof.
  intros p t w.
  apply (serving_reaches_predictor "1.0.0" id (Return p) t w).
  eapply rtc_l; [|apply rtc_refl]. apply step_startup_ok. reflexivity.
Defined.

(** After startup and shutdown the predictor is gone again. *)
Lemma not_serving_unavailable_witness :
  let p := sample_predictor (λ _, Return (PDict [("status", PStr "success")])) in
  let t := "2024-05-01T12:00:00" in
  let w := (lifespan_shutdown (lifespan_startup (Return p) (boot t).2).2).2 in
  (∀ vehicle_data : pydict,
     predict_maintenance id vehicle_data w =
       (Raise (HTTPExc 503 (PStr "Model not loaded. Server may be starting up.")), w)) ∧
  get_model_info "1.0.0" w = (Raise (HTTPExc 503 (PStr "Models not loaded")), w) ∧
  (∃ body, health_check "1.0.0" w = (Return (PDict body), w)).
Proof.
  intros p t w.
  apply (not_serving_unavailable "1.0.0" id (Return p) t Stopped w); [|discriminate].
  eapply rtc_l; [apply step_startup_ok; reflexivity|].
  eapply rtc_l; [|apply rtc_refl].
  apply (step_shutdown "1.0.0" pydict id (Return p)).
Defined.

(** The service's own origin is not admitted. *)
Lemma cors_admits_no_origin_header_witness :
  is_allowed_origin cors
    (origin_header "https" "ev-fleet-predictive-maintenance-backend.onrender.com" None)
  = false.
Proof.
  apply (cors_admits_no_origin_header
           "https" "ev-fleet-predictive-maintenance-backend.onrender.com" None);
    reflexivity.
Defined.
